(** * The GitHub adapter of react-social-login ([src/sdk/github.js])

    A shallow embedding of the adapter: the module-level variables become a
    [State] record threaded through the calls, a promise becomes the way it
    settles together with the list of browser effects (network requests,
    navigations) it performed, and the browser (query string, network) is an
    [Env] record the functions take as an argument. *)

From Stdlib Require Import String Ascii List NArith Bool Lia.
Import ListNotations.

Local Open Scope list_scope.
Local Open Scope string_scope.

(** ** Version 5 UUIDs ([import uuid from 'uuid/v5'])

    Modelled from the spec: the [uuid] package is a dependency and not
    among the sources. The spec calls its result a name-space based
    deterministic hash of the redirect URI; the package computes the
    version 5 identifier of RFC 4122: the SHA-1 digest of the name space
    followed by the name, cut to sixteen bytes, stamped with version and
    variant, and printed in hexadecimal.

    Strings are sequences of bytes (a JS string stands for its UTF-8
    encoding, which is what the package hashes). *)
Module Uuid.

Local Open Scope N_scope.

Definition w32 (x : N) : N := x mod 2 ^ 32.

Definition rotl (n x : N) : N :=
  w32 (N.lor (N.shiftl x n) (N.shiftr x (32 - n))).

Definition add32 (x y : N) : N := w32 (x + y).

(** The five chaining words of SHA-1. *)
Definition words5 : Type := (N * N * N * N * N)%type.

Definition sha1_init : words5 :=
  (0x67452301, 0xEFCDAB89, 0x98BADCFE, 0x10325476, 0xC3D2E1F0).

(** Round function and constant of round [t]. *)
Definition sha1_f (t : nat) (b c d : N) : N :=
  if Nat.ltb t 20 then N.lor (N.land b c) (N.land (N.lxor b 0xFFFFFFFF) d)
  else if Nat.ltb t 40 then N.lxor (N.lxor b c) d
  else if Nat.ltb t 60 then N.lor (N.lor (N.land b c) (N.land b d)) (N.land c d)
  else N.lxor (N.lxor b c) d.

Definition sha1_k (t : nat) : N :=
  if Nat.ltb t 20 then 0x5A827999
  else if Nat.ltb t 40 then 0x6ED9EBA1
  else if Nat.ltb t 60 then 0x8F1BBCDC
  else 0xCA62C1D6.

(** Big-endian packing of bytes into 32-bit words. *)
Fixpoint words_of_bytes (bs : list N) : list N :=
  match bs with
  | b0 :: b1 :: b2 :: b3 :: rest =>
      (b0 * 2 ^ 24 + b1 * 2 ^ 16 + b2 * 2 ^ 8 + b3) :: words_of_bytes rest
  | _ => []
  end.

(** The message schedule: [n] more words after the ones in [w]. *)
Fixpoint schedule (n : nat) (w : list N) : list N :=
  match n with
  | O => w
  | S n' =>
      let t := length w in
      let x := N.lxor (N.lxor (nth (t - 3) w 0) (nth (t - 8) w 0))
                      (N.lxor (nth (t - 14) w 0) (nth (t - 16) w 0)) in
      schedule n' (w ++ [rotl 1 x])
  end.

Fixpoint rounds (t : nat) (ws : list N) (s : words5) : words5 :=
  match ws with
  | [] => s
  | wt :: ws' =>
      let '(a, b, c, d, e) := s in
      let tmp := add32 (add32 (add32 (add32 (rotl 5 a) (sha1_f t b c d)) e)
                              (sha1_k t)) wt in
      rounds (S t) ws' (tmp, a, rotl 30 b, c, d)
  end.

Definition process_block (h : words5) (block : list N) : words5 :=
  let '(h0, h1, h2, h3, h4) := h in
  let '(a, b, c, d, e) := rounds 0 (schedule 64 (words_of_bytes block)) h in
  (add32 h0 a, add32 h1 b, add32 h2 c, add32 h3 d, add32 h4 e).

(** [n] bytes of [x], most significant first. *)
Fixpoint be_bytes (n : nat) (x : N) : list N :=
  match n with
  | O => []
  | S n' => (N.shiftr x (8 * N.of_nat n')) mod 256 :: be_bytes n' x
  end.

Definition pad (msg : list N) : list N :=
  let len := N.of_nat (length msg) in
  let zeros := (64 - (len + 9) mod 64) mod 64 in
  msg ++ [0x80] ++ repeat 0 (N.to_nat zeros) ++ be_bytes 8 (8 * len).

Fixpoint blocks (fuel : nat) (bs : list N) (h : words5) : words5 :=
  match fuel, bs with
  | S fuel', _ :: _ => blocks fuel' (skipn 64 bs) (process_block h (firstn 64 bs))
  | _, _ => h
  end.

Definition sha1 (msg : list N) : words5 :=
  let p := pad msg in blocks (length p) p sha1_init.

Definition bytes_of_string (s : string) : list N :=
  map N_of_ascii (list_ascii_of_string s).

(** [uuid.URL], the name space 6ba7b811-9dad-11d1-80b4-00c04fd430c8. *)
Definition URL : list N :=
  [0x6b; 0xa7; 0xb8; 0x11; 0x9d; 0xad; 0x11; 0xd1;
   0x80; 0xb4; 0x00; 0xc0; 0x4f; 0xd4; 0x30; 0xc8].

Definition hex_digit (d : N) : ascii :=
  if d <? 10 then ascii_of_N (48 + d) else ascii_of_N (87 + d).

Definition hex_byte (b : N) : string :=
  String (hex_digit (b / 16)) (String (hex_digit (b mod 16)) EmptyString).

Definition hex_bytes (bs : list N) : string :=
  fold_right (fun b acc => (hex_byte b ++ acc)%string) EmptyString bs.

(** The sixteen bytes of the identifier, from the first four words of the
    digest, with the version (5) and variant bits set. *)
Definition uuid_bytes (h : words5) : list N :=
  let '(h0, h1, h2, h3, _) := h in
  match be_bytes 4 h0 ++ be_bytes 4 h1 ++ be_bytes 4 h2 ++ be_bytes 4 h3 with
  | [b0; b1; b2; b3; b4; b5; b6; b7; b8; b9; b10; b11; b12; b13; b14; b15] =>
      [b0; b1; b2; b3; b4; b5; N.lor (N.land b6 0x0f) 0x50; b7;
       N.lor (N.land b8 0x3f) 0x80; b9; b10; b11; b12; b13; b14; b15]
  | other => other
  end.

Definition bytesToUuid (bs : list N) : string :=
  (hex_bytes (firstn 4 bs) ++ "-" ++ hex_bytes (firstn 2 (skipn 4 bs)) ++ "-"
   ++ hex_bytes (firstn 2 (skipn 6 bs)) ++ "-" ++ hex_bytes (firstn 2 (skipn 8 bs))
   ++ "-" ++ hex_bytes (skipn 10 bs))%string.

Definition format (h : words5) : string := bytesToUuid (uuid_bytes h).

Definition v5 (name : string) (namespace : list N) : string :=
  format (sha1 (namespace ++ bytes_of_string name)).

End Uuid.

(** ** JavaScript values

    The values the adapter handles: configuration fields, query-string
    values, parsed JSON bodies, error objects and the user record it builds.
    [VInfinity] is the one number the adapter writes, and numbers are not
    modelled otherwise; [VError] is a native [Error] instance; [VObj] is a
    plain object and [VArr] an array. *)
#[local] Set Warnings "-register-all".

Inductive JsVal : Type :=
| VUndefined
| VNull
| VBool (b : bool)
| VStr (s : string)
| VInfinity
| VError (name message : string)
| VObj (fields : list (string * JsVal))
| VArr (items : list JsVal).

(** ToBoolean, as used by [!x], [x || y] and [if (x)]. *)
Definition truthy (v : JsVal) : bool :=
  match v with
  | VUndefined | VNull => false
  | VBool b => b
  | VStr s => negb (String.eqb s "")
  | VInfinity | VError _ _ | VObj _ | VArr _ => true
  end.

(** [a || b]. *)
Definition js_or (a b : JsVal) : JsVal := if truthy a then a else b.

(** ToString, as applied by a template literal [`${v}`]. An array joins
    the strings of its items with commas, [undefined] and [null] items
    counting as empty. *)
Fixpoint toString (v : JsVal) : string :=
  match v with
  | VUndefined => "undefined"
  | VNull => "null"
  | VBool true => "true"
  | VBool false => "false"
  | VStr s => s
  | VInfinity => "Infinity"
  | VError name message =>
      if String.eqb message "" then name else name ++ ": " ++ message
  | VObj _ => "[object Object]"
  | VArr items =>
      (fix join (l : list JsVal) : string :=
         match l with
         | [] => ""
         | item :: rest =>
             let text :=
               match item with
               | VUndefined | VNull => ""
               | _ => toString item
               end in
             match rest with
             | [] => text
             | _ :: _ => text ++ "," ++ join rest
             end
         end) items
  end.

(** [v === 'lit'] for a string literal. *)
Definition strict_eq_str (v : JsVal) (lit : string) : bool :=
  match v with
  | VStr s => String.eqb s lit
  | _ => false
  end.

Fixpoint lookup (key : string) (fields : list (string * JsVal)) : option JsVal :=
  match fields with
  | [] => None
  | (k, v) :: rest => if String.eqb k key then Some v else lookup key rest
  end.

(** The value bound to [key] in a list of fields, [undefined] without one. *)
Definition field (fields : list (string * JsVal)) (key : string) : JsVal :=
  match lookup key fields with Some v => v | None => VUndefined end.

(** [base.key] for the property names the adapter reads ([error], [token],
    [message], [errors], [data], [viewer], [id], [name], [email],
    [avatarUrl]), none of which a primitive inherits; an [Error] has its
    [name] and [message]. [None] is the [TypeError] of reading a property
    of [undefined] or [null]. *)
Definition getProp (base : JsVal) (key : string) : option JsVal :=
  match base with
  | VUndefined | VNull => None
  | VError name message =>
      if String.eqb key "name" then Some (VStr name)
      else if String.eqb key "message" then Some (VStr message)
      else Some VUndefined
  | VObj fields =>
      match lookup key fields with
      | Some v => Some v
      | None => Some VUndefined
      end
  | _ => Some VUndefined
  end.

(** [key in base], for an object. *)
Definition has_field (base : JsVal) (key : string) : bool :=
  match base with
  | VObj fields =>
      match lookup key fields with Some _ => true | None => false end
  | _ => false
  end.

(** A call either returns or throws. *)
Inductive Completion (A : Type) : Type :=
| Normal (a : A)
| Throw (e : JsVal).
Arguments Normal {A} a.
Arguments Throw {A} e.

(** Modelled from the spec: [uuid(value, namespace)] of the package, for
    a name space given by its bytes. A string is hashed; any other value of
    [JsVal] is refused with the package's [TypeError]. *)
Definition uuid (value : JsVal) (namespace : list N) : Completion string :=
  match value with
  | VStr s => Normal (Uuid.v5 s namespace)
  | _ => Throw (VError "TypeError" "value must be an array of bytes")
  end.

(** Modelled from the spec: [rslError] of [../utils] is not among the
    sources. The spec's data model gives the error value it builds,
    AdapterError { provider, type, description, cause }, the cause being
    the [error] field of the argument. *)
Definition rslError (provider type description : string) (error : JsVal) : JsVal :=
  VObj [("provider", VStr provider); ("type", VStr type);
        ("description", VStr description); ("cause", error)].

(** The value of property [key] of [base], [undefined] when it has none. *)
Definition prop (base : JsVal) (key : string) : JsVal :=
  match getProp base key with Some v => v | None => VUndefined end.

(** [undefined] and [null], the values whose properties cannot be read. *)
Definition nullish (v : JsVal) : bool :=
  match v with
  | VUndefined | VNull => true
  | _ => false
  end.

Definition errType (e : JsVal) : JsVal := prop e "type".

Definition errDescription (e : JsVal) : JsVal := prop e "description".

Definition errCause (e : JsVal) : JsVal := prop e "cause".

(** ** The browser *)

Record Request : Type := mkRequest {
  url : string;
  method : string;
  headers : list (string * string);
  body : option string
}.

(** What [response.json()] settles to, if it does: the body may never
    finish arriving. *)
Inductive JsonResult : Type :=
| Parsed (value : JsVal)
| ParseFails (error : JsVal)
| ParseHangs.

Record Response : Type := mkResponse {
  status : N;
  resp_json : JsonResult
}.

(** What [window.fetch(...)] settles to, if it does: a response, whatever
    its HTTP status, or a transport failure; the adapter sets no timeout,
    so a request may never settle. *)
Inductive FetchResult : Type :=
| Responds (response : Response)
| FetchFails (error : JsVal)
| FetchHangs.

(** The navigation context and the network. [getQueryStringValue] is the
    helper of [../utils] reading [window.location], for a page on which it
    returns; [derefMessage] is the engine's message for reading property
    [key] of [undefined] or [null]. *)
Record Env : Type := mkEnv {
  getQueryStringValue : string -> JsVal;
  fetch : Request -> FetchResult;
  derefMessage : string -> string
}.

(** Effects a call performs, in order. *)
Inductive Event : Type :=
| EvFetch (request : Request)
| EvOpen (target : JsVal) (name : string).

(** How a promise ends. *)
Inductive Settled : Type :=
| Resolved (v : JsVal)
| Rejected (e : JsVal)
| Pending.

(** ** The module state *)

Record State : Type := mkState {
  oauth : bool;
  gatekeeperURL : JsVal;
  githubAccessToken : JsVal;
  githubAppId : JsVal;
  githubAuth : JsVal;
  githubRedirect : JsVal
}.

Definition initial : State :=
  {| oauth := false; gatekeeperURL := VUndefined; githubAccessToken := VUndefined;
     githubAppId := VUndefined; githubAuth := VUndefined; githubRedirect := VUndefined |}.

Definition set_oauth (b : bool) (st : State) : State :=
  {| oauth := b; gatekeeperURL := gatekeeperURL st;
     githubAccessToken := githubAccessToken st; githubAppId := githubAppId st;
     githubAuth := githubAuth st; githubRedirect := githubRedirect st |}.

Definition set_gatekeeperURL (v : JsVal) (st : State) : State :=
  {| oauth := oauth st; gatekeeperURL := v;
     githubAccessToken := githubAccessToken st; githubAppId := githubAppId st;
     githubAuth := githubAuth st; githubRedirect := githubRedirect st |}.

Definition set_githubAccessToken (v : JsVal) (st : State) : State :=
  {| oauth := oauth st; gatekeeperURL := gatekeeperURL st;
     githubAccessToken := v; githubAppId := githubAppId st;
     githubAuth := githubAuth st; githubRedirect := githubRedirect st |}.

Definition set_githubAppId (v : JsVal) (st : State) : State :=
  {| oauth := oauth st; gatekeeperURL := gatekeeperURL st;
     githubAccessToken := githubAccessToken st; githubAppId := v;
     githubAuth := githubAuth st; githubRedirect := githubRedirect st |}.

Definition set_githubAuth (v : JsVal) (st : State) : State :=
  {| oauth := oauth st; gatekeeperURL := gatekeeperURL st;
     githubAccessToken := githubAccessToken st; githubAppId := githubAppId st;
     githubAuth := v; githubRedirect := githubRedirect st |}.

Definition set_githubRedirect (v : JsVal) (st : State) : State :=
  {| oauth := oauth st; gatekeeperURL := gatekeeperURL st;
     githubAccessToken := githubAccessToken st; githubAppId := githubAppId st;
     githubAuth := githubAuth st; githubRedirect := v |}.

(** The argument of [load], destructured: an absent field is [VUndefined]. *)
Record Config : Type := mkConfig {
  appId : JsVal;
  redirect : JsVal;
  gatekeeper : JsVal
}.

(** ** The adapter *)

Definition GITHUB_API : string := "https://api.github.com/graphql".

Definition dquote : string := String (ascii_of_nat 34) EmptyString.

(** [JSON.stringify({query: 'query { viewer { id, name, email, avatarUrl } }'})]. *)
Definition probeBody : string :=
  "{" ++ dquote ++ "query" ++ dquote ++ ":" ++ dquote
  ++ "query { viewer { id, name, email, avatarUrl } }" ++ dquote ++ "}".

(** The request of [window.fetch(url)], without options. *)
Definition getRequest (u : string) : Request :=
  {| url := u; method := "GET"; headers := []; body := None |}.

Definition typeError (env : Env) (key : string) : JsVal :=
  VError "TypeError" (derefMessage env key).

(** [getAccessToken] (lines 129-156). *)
Definition getAccessToken (env : Env) (st : State) : Settled * list Event :=
  let authorizationCode := getQueryStringValue env "code" in
  if negb (truthy authorizationCode) then
    (Rejected (VStr "Authorization code not found"), [])
  else
    let request :=
      getRequest (toString (gatekeeperURL st) ++ "/authenticate/"
                  ++ toString authorizationCode) in
    let failed error :=
      Rejected (rslError "github" "access_token"
                  "Failed to fetch user data due to window.fetch() error" error) in
    (match fetch env request with
     | FetchFails error => failed error
     | FetchHangs => Pending
     | Responds response =>
         match resp_json response with
         | ParseFails error => failed error
         | ParseHangs => Pending
         | Parsed json =>
             match getProp json "error", getProp json "token" with
             | Some jerror, Some jtoken =>
                 if truthy jerror || negb (truthy jtoken) then
                   Rejected (rslError "github" "access_token"
                               "Got error from fetch access token" json)
                 else Resolved jtoken
             | _, _ => failed (typeError env "error")
             end
         end
     end, [EvFetch request]).

(** [load] (lines 25-57). *)
Definition load (env : Env) (st : State) (cfg : Config)
  : Settled * State * list Event :=
  if negb (truthy (appId cfg)) then
    (Rejected (rslError "github" "load" "Cannot load SDK without appId" VNull),
     st, [])
  else
    let st := set_githubAppId (appId cfg) st in
    if truthy (gatekeeper cfg) then
      let st := set_gatekeeperURL (gatekeeper cfg) st in
      let st := set_oauth true st in
      let st :=
        set_githubRedirect
          (VStr (toString (redirect cfg) ++ "%3FrslCallback%3Dgithub")) st in
      match uuid (redirect cfg) Uuid.URL with
      | Throw e => (Rejected e, st, [])
      | Normal state =>
          let st :=
            set_githubAuth
              (VStr ("http://github.com/login/oauth/authorize?client_id="
                     ++ toString (githubAppId st) ++ "&redirect_uri="
                     ++ toString (githubRedirect st) ++ "&scope=user&state="
                     ++ state)) st in
          if strict_eq_str (getQueryStringValue env "rslCallback") "github" then
            match getAccessToken env st with
            | (Resolved accessToken, tr) =>
                (Resolved accessToken, set_githubAccessToken accessToken st, tr)
            | (Rejected e, tr) => (Rejected e, st, tr)
            | (Pending, tr) => (Pending, st, tr)
            end
          else (Resolved VUndefined, st, [])
      end
    else (Resolved VUndefined, st, []).

(** The request of the probe (lines 78-84); [Headers] is taken to accept
    the value. *)
Definition probeRequest (st : State) : Request :=
  {| url := GITHUB_API;
     method := "POST";
     headers :=
       [("Authorization",
         "Bearer " ++ toString (js_or (githubAccessToken st) (githubAppId st)))];
     body := Some probeBody |}.

(** A text that [new Headers] takes as it is inside a header value:
    visible ASCII characters only, so no control character, which it
    refuses, and no white space, which it strips at the ends. *)
Fixpoint headerSafe (s : string) : bool :=
  match s with
  | EmptyString => true
  | String c rest =>
      Nat.leb 33 (nat_of_ascii c) && Nat.leb (nat_of_ascii c) 126
      && headerSafe rest
  end.

(** [checkLogin] past its [autoLogin] test (lines 68-104): what
    [checkLogin()] and [checkLogin(false)] run. *)
Definition checkLogin_probe (env : Env) (st : State) : Settled * list Event :=
  if negb (truthy (githubAccessToken st)) && oauth st then
    (Rejected (rslError "github" "access_token" "No access token available" VNull),
     [])
  else
    let failed :=
      Rejected (rslError "github" "check_login"
                  "Failed to fetch user data due to window.fetch() error" VNull) in
    (match fetch env (probeRequest st) with
     | FetchFails _ => failed
     | FetchHangs => Pending
     | Responds response =>
         match resp_json response with
         | ParseFails _ => failed
         | ParseHangs => Pending
         | Parsed json =>
             match getProp json "message", getProp json "errors" with
             | Some message, Some errors =>
                 if truthy message || truthy errors then
                   Rejected (rslError "github" "check_login"
                               "Failed to fetch user data" json)
                 else Resolved json
             | _, _ => failed
             end
         end
     end, [EvFetch (probeRequest st)]).

(** [login] (lines 112-122); its [checkLogin()] call takes the default
    [autoLogin = false]. *)
Definition login (env : Env) (st : State) : Settled * list Event :=
  match checkLogin_probe env st with
  | (Resolved response, tr) => (Resolved response, tr)
  | (Rejected error, tr) =>
      if negb (oauth st) then (Rejected error, tr)
      else (Pending, (tr ++ [EvOpen (githubAuth st) "_self"])%list)
  | (Pending, tr) => (Pending, tr)
  end.

(** [checkLogin] (lines 63-105). *)
Definition checkLogin (env : Env) (st : State) (autoLogin : bool)
  : Settled * list Event :=
  if autoLogin then login env st else checkLogin_probe env st.

(** [generateUser] (lines 162-177); [None] is the [TypeError] of
    destructuring or reading a response without [data.viewer]. *)
Definition generateUser (st : State) (response : JsVal) : option JsVal :=
  match getProp response "data" with
  | None => None
  | Some data =>
      match getProp data "viewer" with
      | None => None
      | Some viewer =>
          match getProp viewer "id", getProp viewer "name",
                getProp viewer "email", getProp viewer "avatarUrl" with
          | Some id, Some name, Some email, Some avatarUrl =>
              Some (VObj
                [("profile",
                  VObj [("id", id); ("name", name); ("firstName", name);
                        ("lastName", name); ("email", email);
                        ("profilePicURL", avatarUrl)]);
                 ("token",
                  VObj [("accessToken",
                         js_or (githubAccessToken st) (githubAppId st));
                        ("expiresAt", VInfinity)])])
          | _, _, _, _ => None
          end
      end
  end.

(** The state parameter [load] puts in the authorization URL for a
    redirect URI given as a string. *)
Definition stateToken (redirectUri : string) : string :=
  Uuid.v5 redirectUri Uuid.URL.

(** The authorization URL of line 41 for a string redirect URI, as a
    function of the state parameter. *)
Definition authorizationUrlWith (clientId : JsVal) (redirectUri state : string)
  : string :=
  "http://github.com/login/oauth/authorize?client_id=" ++ toString clientId
  ++ "&redirect_uri=" ++ (redirectUri ++ "%3FrslCallback%3Dgithub")
  ++ "&scope=user&state=" ++ state.

Definition authorizationUrl (clientId : JsVal) (redirectUri : string) : string :=
  authorizationUrlWith clientId redirectUri (stateToken redirectUri).

(** ** Concrete browsers and configurations, for the examples *)
Module Sample.

(** A navigation context given by its query parameters; a parameter that
    is not there reads as the empty string. *)
Fixpoint query (params : list (string * string)) (key : string) : JsVal :=
  match params with
  | [] => VStr ""
  | (k, v) :: rest => if String.eqb k key then VStr v else query rest key
  end.

(** A network answering every request with status [code] and the JSON [b]. *)
Definition answering (code : N) (b : JsVal) (_ : Request) : FetchResult :=
  Responds {| status := code; resp_json := Parsed b |}.

Definition browserWith (code : N) (params : list (string * string)) (b : JsVal)
  : Env :=
  {| getQueryStringValue := query params;
     fetch := answering code b;
     derefMessage := fun key => "Cannot read property '" ++ key ++ "' of null" |}.

Definition browser : list (string * string) -> JsVal -> Env := browserWith 200.

Definition callbackParams : list (string * string) :=
  [("rslCallback", "github"); ("code", "ABC123")].

Definition oauthConfig : Config :=
  {| appId := VStr "app"; redirect := VStr "http://localhost/cb";
     gatekeeper := VStr "http://gk" |}.

Definition directConfig : Config :=
  {| appId := VStr "app"; redirect := VUndefined; gatekeeper := VUndefined |}.

Definition noAppId : Config :=
  {| appId := VUndefined; redirect := VStr "http://localhost/cb";
     gatekeeper := VStr "http://gk" |}.

(** The state [load] leaves on a page that is not a callback. *)
Definition loadedOauth : State :=
  {| oauth := true; gatekeeperURL := VStr "http://gk";
     githubAccessToken := VUndefined; githubAppId := VStr "app";
     githubAuth := VStr (authorizationUrl (VStr "app") "http://localhost/cb");
     githubRedirect := VStr "http://localhost/cb%3FrslCallback%3Dgithub" |}.

Definition loadedDirect : State :=
  {| oauth := false; gatekeeperURL := VUndefined;
     githubAccessToken := VUndefined; githubAppId := VStr "app";
     githubAuth := VUndefined; githubRedirect := VUndefined |}.

Definition ada : JsVal :=
  VObj [("data",
         VObj [("viewer",
                VObj [("id", VStr "1"); ("name", VStr "Ada");
                      ("email", VStr "a@x.com"); ("avatarUrl", VStr "u")])])].

(** A browser whose requests never settle. *)
Definition hanging (params : list (string * string)) : Env :=
  {| getQueryStringValue := query params;
     fetch := fun _ => FetchHangs;
     derefMessage := fun key => "Cannot read property '" ++ key ++ "' of null" |}.

(** Answers of the relay. *)
Definition denied : JsVal := VObj [("error", VStr "denied")].


(** Answers of the GraphQL endpoint. *)
Definition badCredentials : JsVal := VObj [("message", VStr "Bad credentials")].

Definition nullErrors : JsVal :=
  VObj [("data",
         VObj [("viewer",
                VObj [("id", VStr "1"); ("name", VStr "Ada");
                      ("email", VStr "a@x.com"); ("avatarUrl", VStr "u")])]);
        ("errors", VNull)].

(** A browser without network: every request fails. *)
Definition networkError : JsVal := VError "TypeError" "Failed to fetch".

Definition offline (params : list (string * string)) : Env :=
  {| getQueryStringValue := query params;
     fetch := fun _ => FetchFails networkError;
     derefMessage := fun key => "Cannot read property '" ++ key ++ "' of null" |}.

End Sample.

(** * Properties *)

(** ** Sanity of the definitions *)

(** The identifiers of the package's documentation and of Python's
    [uuid.uuid5], for names of one and of several blocks. *)
Example v5_url_example :
  Uuid.v5 "http://example.com/hello" Uuid.URL
  = "3bbcee75-cecc-5b56-8031-b6641c1ed1f1".
Proof. vm_compute. reflexivity. Qed.

Example v5_two_blocks :
  stateToken "http://localhost:3000/some/long/path/for/the/callback/page"
  = "40275be8-5b17-5331-86ad-b97730a733df".
Proof. vm_compute. reflexivity. Qed.

Example v5_three_blocks :
  stateToken "http://example.com/aaaaaaaaaaaaaaaaaaaaaaaaaaaaaaaaaaaaaaaaaaaaaaaaaaaaaaaaaaaaaaaaaaaaaaaaaaaaaaaaaaaaaaaaaaaaaaaaaaaaaaaaaaaaaaaaaaaaaaaa"
  = "5da0f05b-7c20-5289-9cee-e184fcdaa8cf".
Proof. vm_compute. reflexivity. Qed.

(** A template literal joins the items of an array, as
    [[null, 'a', undefined, ['b', 'c']].join()] does. *)
Example toString_array :
  toString (VArr [VStr "x"; VStr "y"]) = "x,y"
  /\ toString (VArr [VNull; VStr "a"; VUndefined; VArr [VStr "b"; VStr "c"]])
     = ",a,,b,c"
  /\ toString (VArr []) = "".
Proof. repeat split. Qed.

(** With a request that never settles, the probe and a [login] in
    RedirectOAuth mode stay pending after the one request, and no window is
    opened. *)
Example login_on_hanging_probe :
  login (Sample.hanging [])
    (set_githubAccessToken (VStr "t1") Sample.loadedOauth)
  = (Pending,
     [EvFetch (probeRequest
                 (set_githubAccessToken (VStr "t1") Sample.loadedOauth))]).
Proof. reflexivity. Qed.

Example loadedOauth_is_loaded :
  load (Sample.browser [] VNull) initial Sample.oauthConfig
  = (Resolved VUndefined, Sample.loadedOauth, []).
Proof. vm_compute. reflexivity. Qed.

Example loadedDirect_is_loaded :
  load (Sample.browser [] VNull) initial Sample.directConfig
  = (Resolved VUndefined, Sample.loadedDirect, []).
Proof. reflexivity. Qed.

(** [checkLogin()] and [checkLogin(false)] run the probe; [login] is the
    source's function of that call. *)
Lemma checkLogin_default (env : Env) (st : State) :
  checkLogin env st false = checkLogin_probe env st.
Proof. reflexivity. Qed.

Lemma checkLogin_auto (env : Env) (st : State) :
  checkLogin env st true = login env st.
Proof. reflexivity. Qed.

(** ** Configuration intake *)

(** C2: when [appId] is absent or empty (falsy), [load] rejects with the
    AdapterError of type [load], leaves every variable of the module as it
    was, and performs no effect. *)
Theorem load_without_appId (env : Env) (st : State) (cfg : Config) :
  truthy (appId cfg) = false ->
  load env st cfg
  = (Rejected (rslError "github" "load" "Cannot load SDK without appId" VNull),
     st, [])
  /\ errType (rslError "github" "load" "Cannot load SDK without appId" VNull)
     = VStr "load".
Proof.
  intros Happ. split; [| reflexivity].
  unfold load. rewrite Happ. reflexivity.
Qed.

Lemma load_without_appId_witness :
  load (Sample.browser Sample.callbackParams VNull) Sample.loadedOauth Sample.noAppId
  = (Rejected (rslError "github" "load" "Cannot load SDK without appId" VNull),
     Sample.loadedOauth, []).
Proof.
  apply (load_without_appId (Sample.browser Sample.callbackParams VNull)
           Sample.loadedOauth Sample.noAppId).
  reflexivity.
Defined.

(** ** Session prober *)

(** C3: in RedirectOAuth mode without a recorded access token,
    [checkLogin(false)] rejects with the AdapterError of type
    [access_token] and description 'No access token available', and issues
    no network call. *)
Theorem checkLogin_without_token (env : Env) (st : State) :
  oauth st = true ->
  truthy (githubAccessToken st) = false ->
  checkLogin env st false
  = (Rejected (rslError "github" "access_token" "No access token available" VNull),
     []).
Proof.
  intros Hoauth Htok. unfold checkLogin, checkLogin_probe.
  rewrite Hoauth, Htok. reflexivity.
Qed.

Lemma checkLogin_without_token_witness :
  checkLogin (Sample.browser [] Sample.ada) Sample.loadedOauth false
  = (Rejected (rslError "github" "access_token" "No access token available" VNull),
     []).
Proof.
  apply (checkLogin_without_token (Sample.browser [] Sample.ada) Sample.loadedOauth);
    reflexivity.
Defined.

(** The probe performs network requests only. *)
Lemma checkLogin_probe_effects (env : Env) (st : State) (ev : Event) :
  In ev (snd (checkLogin_probe env st)) -> ev = EvFetch (probeRequest st).
Proof.
  unfold checkLogin_probe.
  destruct (negb (truthy (githubAccessToken st)) && oauth st); simpl.
  - intros [].
  - intros [H | []]. now symmetry.
Qed.

(** ** Authorization launcher *)

(** C6: when the probe of [login] rejects, [login] rejects with the very
    same error and opens no window in DirectToken mode, and in
    RedirectOAuth mode navigates to the authorization URL and stays
    pending; when the probe resolves, [login] resolves with the same
    value. *)
Theorem login_follows_probe (env : Env) (st : State) :
  (forall e tr,
      checkLogin env st false = (Rejected e, tr) ->
      oauth st = false ->
      login env st = (Rejected e, tr)
      /\ forall target name, ~ In (EvOpen target name) (snd (login env st)))
  /\ (forall e tr,
         checkLogin env st false = (Rejected e, tr) ->
         oauth st = true ->
         login env st = (Pending, (tr ++ [EvOpen (githubAuth st) "_self"])%list))
  /\ (forall v tr,
         checkLogin env st false = (Resolved v, tr) ->
         login env st = (Resolved v, tr)).
Proof.
  rewrite checkLogin_default. split; [| split].
  - intros e tr H Hoauth. split.
    + unfold login. rewrite H, Hoauth. reflexivity.
    + intros target name Hin. unfold login in Hin. rewrite H, Hoauth in Hin.
      simpl in Hin. replace tr with (snd (checkLogin_probe env st)) in Hin
        by (rewrite H; reflexivity).
      apply checkLogin_probe_effects in Hin. discriminate.
  - intros e tr H Hoauth. unfold login. rewrite H, Hoauth. reflexivity.
  - intros v tr H. unfold login. rewrite H. reflexivity.
Qed.

Lemma login_follows_probe_witness :
  login (Sample.browser [] (VObj [("message", VStr "Bad credentials")]))
        Sample.loadedDirect
  = (Rejected (rslError "github" "check_login" "Failed to fetch user data"
                 (VObj [("message", VStr "Bad credentials")])),
     [EvFetch (probeRequest Sample.loadedDirect)])
  /\ login (Sample.browser [] Sample.ada) Sample.loadedOauth
     = (Pending,
        [EvOpen (VStr (authorizationUrl (VStr "app") "http://localhost/cb")) "_self"])
  /\ login (Sample.browser [] Sample.ada) Sample.loadedDirect
     = (Resolved Sample.ada, [EvFetch (probeRequest Sample.loadedDirect)]).
Proof.
  split; [| split].
  - apply (proj1 (login_follows_probe
                    (Sample.browser [] (VObj [("message", VStr "Bad credentials")]))
                    Sample.loadedDirect)); reflexivity.
  - apply (proj1 (proj2 (login_follows_probe (Sample.browser [] Sample.ada)
                           Sample.loadedOauth))
             (rslError "github" "access_token" "No access token available" VNull)
             []); reflexivity.
  - apply (proj2 (proj2 (login_follows_probe (Sample.browser [] Sample.ada)
                           Sample.loadedDirect))); reflexivity.
Defined.

(** ** Profile normalizer *)

(** C7: [generateUser] takes the response and the module variables and
    returns a value, with no effect; on every response carrying an object
    [data.viewer] it returns the user record, with [firstName] and
    [lastName] both taken from [name], the access token or else the appId,
    and [Infinity] as expiry; on the response of Ada it returns the record
    of the spec. *)
Theorem generateUser_viewer (st : State) :
  (forall viewer more moreData,
      generateUser st
        (VObj (("data", VObj (("viewer", VObj viewer) :: moreData)) :: more))
      = Some (VObj
          [("profile",
            VObj [("id", field viewer "id"); ("name", field viewer "name");
                  ("firstName", field viewer "name");
                  ("lastName", field viewer "name");
                  ("email", field viewer "email");
                  ("profilePicURL", field viewer "avatarUrl")]);
           ("token",
            VObj [("accessToken",
                   if truthy (githubAccessToken st) then githubAccessToken st
                   else githubAppId st);
                  ("expiresAt", VInfinity)])]))
  /\ generateUser st Sample.ada
     = Some (VObj
         [("profile",
           VObj [("id", VStr "1"); ("name", VStr "Ada");
                 ("firstName", VStr "Ada"); ("lastName", VStr "Ada");
                 ("email", VStr "a@x.com"); ("profilePicURL", VStr "u")]);
          ("token",
           VObj [("accessToken",
                  if truthy (githubAccessToken st) then githubAccessToken st
                  else githubAppId st);
                 ("expiresAt", VInfinity)])]).
Proof.
  split; [| reflexivity].
  intros viewer more moreData. unfold generateUser, field. simpl.
  destruct (lookup "id" viewer), (lookup "name" viewer),
    (lookup "email" viewer), (lookup "avatarUrl" viewer); reflexivity.
Qed.

(** ** Callback detector *)

(** What [load] does on a callback page once its configuration is
    accepted: it updates the module variables and hands over to
    [getAccessToken]. *)
Lemma load_on_callback (env : Env) (st : State) (cfg : Config) (r : string) :
  truthy (appId cfg) = true ->
  truthy (gatekeeper cfg) = true ->
  redirect cfg = VStr r ->
  getQueryStringValue env "rslCallback" = VStr "github" ->
  exists st',
    gatekeeperURL st' = gatekeeper cfg
    /\ githubAccessToken st' = githubAccessToken st
    /\ githubAppId st' = appId cfg
    /\ load env st cfg
       = match getAccessToken env st' with
         | (Resolved accessToken, tr) =>
             (Resolved accessToken, set_githubAccessToken accessToken st', tr)
         | (Rejected e, tr) => (Rejected e, st', tr)
         | (Pending, tr) => (Pending, st', tr)
         end.
Proof.
  intros Happ Hgk Hr Hcb. unfold load.
  rewrite Happ, Hgk, Hr, Hcb. simpl.
  eexists. split; [| split; [| split; [| reflexivity]]]; reflexivity.
Qed.

(** C10: without a [code] query parameter [getAccessToken] rejects without
    contacting the relay, and so does a [load] that runs it. *)
Theorem getAccessToken_missing_code_no_request (env : Env) (st : State) :
  truthy (getQueryStringValue env "code") = false ->
  (exists e, fst (getAccessToken env st) = Rejected e)
  /\ snd (getAccessToken env st) = []
  /\ forall cfg r,
       truthy (appId cfg) = true ->
       truthy (gatekeeper cfg) = true ->
       redirect cfg = VStr r ->
       getQueryStringValue env "rslCallback" = VStr "github" ->
       (exists e, fst (fst (load env st cfg)) = Rejected e)
       /\ snd (load env st cfg) = [].
Proof.
  intros Hcode.
  assert (Hget : forall s, getAccessToken env s
                           = (Rejected (VStr "Authorization code not found"), [])).
  { intros s. unfold getAccessToken. rewrite Hcode. reflexivity. }
  split; [| split].
  - rewrite Hget. eexists. reflexivity.
  - rewrite Hget. reflexivity.
  - intros cfg r Happ Hgk Hr Hcb.
    destruct (load_on_callback env st cfg r Happ Hgk Hr Hcb)
      as (st' & _ & _ & _ & Hload).
    rewrite Hload, Hget. split; [eexists |]; reflexivity.
Qed.

Lemma getAccessToken_missing_code_no_request_witness :
  snd (getAccessToken (Sample.browser [("rslCallback", "github")] VNull)
         Sample.loadedOauth) = []
  /\ snd (load (Sample.browser [("rslCallback", "github")] VNull) initial
            Sample.oauthConfig) = [].
Proof.
  split.
  - apply (getAccessToken_missing_code_no_request
             (Sample.browser [("rslCallback", "github")] VNull)
             Sample.loadedOauth).
    reflexivity.
  - apply (proj2 (proj2 (getAccessToken_missing_code_no_request
                           (Sample.browser [("rslCallback", "github")] VNull)
                           initial eq_refl))
             Sample.oauthConfig "http://localhost/cb"); reflexivity.
Defined.

(** C9: on a callback page without a [code] parameter, [getAccessToken],
    and [load] with it, rejects with the bare string 'Authorization code
    not found': the rejection value is no AdapterError, it has neither type
    nor description. *)
Theorem missing_code_rejects_with_string :
  getAccessToken (Sample.browser [("rslCallback", "github")] VNull)
    Sample.loadedOauth
  = (Rejected (VStr "Authorization code not found"), [])
  /\ fst (fst (load (Sample.browser [("rslCallback", "github")] VNull) initial
                 Sample.oauthConfig))
     = Rejected (VStr "Authorization code not found")
  /\ errType (VStr "Authorization code not found") = VUndefined
  /\ errDescription (VStr "Authorization code not found") = VUndefined
  /\ VStr "Authorization code not found"
     <> rslError "github" "access_token" "Authorization code not found" VNull.
Proof.
  repeat split; try reflexivity; discriminate.
Qed.

(** C1: on a callback page with [code=ABC123], a [load] in RedirectOAuth
    mode issues exactly one request, a GET of
    [{gatekeeper}/authenticate/ABC123]; when the relay answers
    [{token: "t1"}], whatever the status, [load] resolves with ["t1"] and
    records it, and the next [checkLogin()] sends [Bearer t1]. *)
Theorem load_callback_exchanges_code
    (env : Env) (st : State) (cfg : Config) (r : string) :
  truthy (appId cfg) = true ->
  truthy (gatekeeper cfg) = true ->
  redirect cfg = VStr r ->
  getQueryStringValue env "rslCallback" = VStr "github" ->
  getQueryStringValue env "code" = VStr "ABC123" ->
  let relayRequest :=
    {| url := toString (gatekeeper cfg) ++ "/authenticate/ABC123";
       method := "GET"; headers := []; body := None |} in
  snd (load env st cfg) = [EvFetch relayRequest]
  /\ forall code,
       fetch env relayRequest
       = Responds {| status := code;
                     resp_json := Parsed (VObj [("token", VStr "t1")]) |} ->
       fst (fst (load env st cfg)) = Resolved (VStr "t1")
       /\ githubAccessToken (snd (fst (load env st cfg))) = VStr "t1"
       /\ forall env',
            snd (checkLogin env' (snd (fst (load env st cfg))) false)
            = [EvFetch {| url := GITHUB_API; method := "POST";
                          headers := [("Authorization", "Bearer t1")];
                          body := Some probeBody |}].
Proof.
  intros Happ Hgk Hr Hcb Hcode relayRequest.
  destruct (load_on_callback env st cfg r Happ Hgk Hr Hcb)
    as (st' & Hgk' & _ & _ & Hload).
  assert (Hreq : getRequest (toString (gatekeeperURL st') ++ "/authenticate/"
                             ++ toString (getQueryStringValue env "code"))
                 = relayRequest).
  { rewrite Hgk', Hcode. reflexivity. }
  split.
  - rewrite Hload. unfold getAccessToken. rewrite Hcode at 1. simpl truthy.
    simpl negb. cbv iota. rewrite Hreq.
    destruct (fetch env relayRequest) as [response | error |];
      try reflexivity.
    destruct (resp_json response) as [json | error |]; try reflexivity.
    destruct (getProp json "error") as [jerror |]; [| reflexivity].
    destruct (getProp json "token") as [jtoken |]; [| reflexivity].
    destruct (truthy jerror || negb (truthy jtoken)); reflexivity.
  - intros code Hfetch.
    assert (Hget : getAccessToken env st'
                   = (Resolved (VStr "t1"), [EvFetch relayRequest])).
    { unfold getAccessToken. rewrite Hcode at 1. simpl truthy. simpl negb.
      cbv iota. rewrite Hreq, Hfetch. reflexivity. }
    rewrite Hload, Hget. simpl. repeat split.
Qed.

Lemma load_callback_exchanges_code_witness :
  let env :=
    Sample.browser Sample.callbackParams (VObj [("token", VStr "t1")]) in
  snd (load env initial Sample.oauthConfig)
  = [EvFetch (getRequest "http://gk/authenticate/ABC123")]
  /\ fst (fst (load env initial Sample.oauthConfig)) = Resolved (VStr "t1")
  /\ githubAccessToken (snd (fst (load env initial Sample.oauthConfig)))
     = VStr "t1".
Proof.
  intros env.
  destruct (load_callback_exchanges_code env initial Sample.oauthConfig
              "http://localhost/cb" eq_refl eq_refl eq_refl eq_refl eq_refl)
    as [Htrace Hrelay].
  destruct (Hrelay 200%N eq_refl) as (Hout & Htok & _).
  exact (conj Htrace (conj Hout Htok)).
Defined.

(** Reading a property throws for [undefined] and [null] only, whatever
    the property. *)
Lemma getProp_throws (base : JsVal) (key : string) :
  getProp base key = None -> base = VUndefined \/ base = VNull.
Proof.
  destruct base; simpl; auto; try discriminate.
  - destruct (String.eqb key "name"); [discriminate |].
    destruct (String.eqb key "message"); discriminate.
  - destruct (lookup key fields); discriminate.
Qed.

Lemma getProp_throws_all (base : JsVal) (key key' : string) :
  getProp base key = None -> getProp base key' = None.
Proof.
  intros H. destruct (getProp_throws base key H); subst; reflexivity.
Qed.





(** C5, amended: once the probe has been sent and answered with a JSON
    body, whatever the HTTP status, [checkLogin] rejects with the
    AdapterError of type [check_login] carrying the body as cause when the
    body's [message] or [errors] is truthy, and resolves with the body
    itself when both are missing or falsy and the body is not [null]. *)
Theorem checkLogin_probe_answer (env : Env) (st : State) (response : Response)
    (json : JsVal) :
  truthy (githubAccessToken st) = true \/ oauth st = false ->
  fetch env (probeRequest st) = Responds response ->
  resp_json response = Parsed json ->
  (truthy (prop json "message") = true \/ truthy (prop json "errors") = true ->
   fst (checkLogin env st false)
   = Rejected (rslError "github" "check_login" "Failed to fetch user data" json)
   /\ errType (rslError "github" "check_login" "Failed to fetch user data" json)
      = VStr "check_login"
   /\ errCause (rslError "github" "check_login" "Failed to fetch user data" json)
      = json)
  /\ (truthy (prop json "message") = false ->
      truthy (prop json "errors") = false ->
      json <> VNull -> json <> VUndefined ->
      fst (checkLogin env st false) = Resolved json).
Proof.
  intros Hsent Hfetch Hjson. unfold checkLogin, checkLogin_probe.
  assert (Hgo : negb (truthy (githubAccessToken st)) && oauth st = false).
  { destruct Hsent as [H | H]; rewrite H; auto using andb_false_r. }
  rewrite Hgo, Hfetch, Hjson. unfold prop. simpl fst. split.
  - intros Hbad. split; [| split; reflexivity].
    destruct (getProp json "message") as [message |] eqn:Emessage.
    + destruct (getProp json "errors") as [errors |] eqn:Eerrors.
      * assert (Hcond : truthy message || truthy errors = true).
        { destruct Hbad as [H | H]; rewrite H; auto using orb_true_r. }
        rewrite Hcond. reflexivity.
      * apply getProp_throws_all with (key' := "message") in Eerrors.
        congruence.
    + destruct Hbad as [H | H]; [discriminate |].
      apply getProp_throws_all with (key' := "errors") in Emessage.
      rewrite Emessage in H. discriminate.
  - intros Hmessage Herrors Hnull Hundef.
    destruct (getProp json "message") as [message |] eqn:Emessage.
    + destruct (getProp json "errors") as [errors |] eqn:Eerrors.
      * rewrite Hmessage, Herrors. reflexivity.
      * apply getProp_throws_all with (key' := "message") in Eerrors.
        congruence.
    + destruct (getProp_throws json "message" Emessage); contradiction.
Qed.

Lemma checkLogin_probe_answer_witness :
  fst (checkLogin (Sample.browserWith 401 [] Sample.badCredentials)
         Sample.loadedDirect false)
  = Rejected (rslError "github" "check_login" "Failed to fetch user data"
                Sample.badCredentials)
  /\ fst (checkLogin (Sample.browser [] Sample.ada) Sample.loadedDirect false)
     = Resolved Sample.ada.
Proof.
  split.
  - apply (proj1 (checkLogin_probe_answer
                    (Sample.browserWith 401 [] Sample.badCredentials)
                    Sample.loadedDirect
                    {| status := 401; resp_json := Parsed Sample.badCredentials |}
                    Sample.badCredentials (or_intror eq_refl) eq_refl eq_refl)).
    left. reflexivity.
  - apply (proj2 (checkLogin_probe_answer
                    (Sample.browser [] Sample.ada) Sample.loadedDirect
                    {| status := 200; resp_json := Parsed Sample.ada |}
                    Sample.ada (or_intror eq_refl) eq_refl eq_refl));
      try reflexivity; discriminate.
Defined.

(** C5 as stated fails: a body that contains an [errors] field holding
    [null] is not rejected; [checkLogin] resolves with it. *)
Lemma null_errors_field_is_accepted :
  has_field Sample.nullErrors "errors" = true
  /\ fst (checkLogin (Sample.browser [] Sample.nullErrors) Sample.loadedDirect
            false)
     = Resolved Sample.nullErrors.
Proof. vm_compute. split; reflexivity. Qed.

(** * Further properties of the adapter *)

(** ** The token exchange *)

(** [getAccessToken] reads the module state through [gatekeeperURL] only. *)
Lemma getAccessToken_gatekeeper (env : Env) (s1 s2 : State) :
  gatekeeperURL s1 = gatekeeperURL s2 ->
  getAccessToken env s1 = getAccessToken env s2.
Proof. intros H. unfold getAccessToken. rewrite H. reflexivity. Qed.

(** The requests of [getAccessToken]: one, to the relay, once there is a
    code. *)
Lemma getAccessToken_effects (env : Env) (st : State) :
  snd (getAccessToken env st)
  = if truthy (getQueryStringValue env "code") then
      [EvFetch (getRequest (toString (gatekeeperURL st) ++ "/authenticate/"
                            ++ toString (getQueryStringValue env "code")))]
    else [].
Proof.
  unfold getAccessToken.
  destruct (truthy (getQueryStringValue env "code")); reflexivity.
Qed.

(** What a resolved exchange tells. *)
Lemma getAccessToken_resolved (env : Env) (st : State) (t : JsVal) :
  fst (getAccessToken env st) = Resolved t ->
  truthy t = true
  /\ truthy (getQueryStringValue env "code") = true
  /\ exists response json,
       fetch env (getRequest (toString (gatekeeperURL st) ++ "/authenticate/"
                              ++ toString (getQueryStringValue env "code")))
       = Responds response
       /\ resp_json response = Parsed json
       /\ getProp json "token" = Some t
       /\ truthy (prop json "error") = false.
Proof.
  unfold getAccessToken, prop.
  destruct (truthy (getQueryStringValue env "code")) eqn:Hcode;
    [| discriminate].
  cbn [negb fst]. cbv zeta.
  destruct (fetch env _) as [response | error |] eqn:Hfetch;
    try discriminate.
  destruct (resp_json response) as [json | error |] eqn:Hjson;
    try discriminate.
  destruct (getProp json "error") as [jerror |] eqn:Herror; [| discriminate].
  destruct (getProp json "token") as [jtoken |] eqn:Htoken; [| discriminate].
  destruct (truthy jerror) eqn:Hbad; [discriminate |].
  destruct (truthy jtoken) eqn:Hgood; [| discriminate].
  cbn [orb negb]. intros H. injection H as <-.
  split; [exact Hgood |]. split; [reflexivity |].
  exists response, json. repeat split; try assumption.
  rewrite Herror. exact Hbad.
Qed.

(** X1: [getAccessToken] resolves only with a truthy [token] that the relay
    sent in a JSON body without a truthy [error], in answer to the one
    request for the code of the page. *)
Theorem getAccessToken_resolves_only (env : Env) (st : State) (t : JsVal) :
  fst (getAccessToken env st) = Resolved t ->
  truthy t = true
  /\ truthy (getQueryStringValue env "code") = true
  /\ exists response json,
       fetch env (getRequest (toString (gatekeeperURL st) ++ "/authenticate/"
                              ++ toString (getQueryStringValue env "code")))
       = Responds response
       /\ resp_json response = Parsed json
       /\ getProp json "token" = Some t
       /\ truthy (prop json "error") = false.
Proof. exact (getAccessToken_resolved env st t). Qed.

Lemma getAccessToken_resolves_only_witness :
  truthy (VStr "t1") = true
  /\ truthy (Sample.query Sample.callbackParams "code") = true.
Proof.
  destruct (getAccessToken_resolves_only
              (Sample.browser Sample.callbackParams (VObj [("token", VStr "t1")]))
              Sample.loadedOauth (VStr "t1") eq_refl) as (Ht & Hc & _).
  exact (conj Ht Hc).
Defined.

(** X2: when the request to the relay fails, or its answer is not JSON,
    [getAccessToken] rejects with an AdapterError of type [access_token]
    that keeps the failure as its cause, after that one request. *)
Theorem getAccessToken_transport_failure (env : Env) (st : State)
    (error : JsVal) :
  truthy (getQueryStringValue env "code") = true ->
  let request :=
    getRequest (toString (gatekeeperURL st) ++ "/authenticate/"
                ++ toString (getQueryStringValue env "code")) in
  fetch env request = FetchFails error
  \/ (exists response,
         fetch env request = Responds response
         /\ resp_json response = ParseFails error) ->
  getAccessToken env st
  = (Rejected (rslError "github" "access_token"
                 "Failed to fetch user data due to window.fetch() error" error),
     [EvFetch request]).
Proof.
  intros Hcode request Hfail. unfold getAccessToken. rewrite Hcode.
  simpl negb. cbv iota zeta. fold request.
  destruct Hfail as [Hfetch | (response & Hfetch & Hjson)].
  - rewrite Hfetch. reflexivity.
  - rewrite Hfetch, Hjson. reflexivity.
Qed.

Lemma getAccessToken_transport_failure_witness :
  getAccessToken (Sample.offline Sample.callbackParams) Sample.loadedOauth
  = (Rejected (rslError "github" "access_token"
                 "Failed to fetch user data due to window.fetch() error"
                 Sample.networkError),
     [EvFetch (getRequest "http://gk/authenticate/ABC123")]).
Proof.
  apply (getAccessToken_transport_failure
           (Sample.offline Sample.callbackParams) Sample.loadedOauth
           Sample.networkError eq_refl).
  left. reflexivity.
Defined.

(** ** Configuration intake, case by case *)

Lemma strict_eq_str_true (v : JsVal) (lit : string) :
  strict_eq_str v lit = true -> v = VStr lit.
Proof.
  destruct v; simpl; try discriminate.
  intros H. apply String.eqb_eq in H. now subst.
Qed.

(** Runs through the branches of [load]. *)
Ltac load_cases env st cfg :=
  unfold load;
  destruct (truthy (appId cfg)) eqn:Happ; cbn [negb];
  [ destruct (truthy (gatekeeper cfg)) eqn:Hgk;
    [ destruct (uuid (redirect cfg) Uuid.URL) as [token | thrown] eqn:Huuid;
      [ destruct (strict_eq_str (getQueryStringValue env "rslCallback") "github")
          eqn:Hcb;
        [ match goal with
          | |- context [getAccessToken env ?s] =>
              let E := fresh "Hget" in
              destruct (getAccessToken env s) as [[v | e |] tr] eqn:E
          end
        | ]
      | ]
    | ]
  | ].

(** X3: [load] performs at most one effect, a GET without headers or body
    of [{gatekeeper}/authenticate/{code}], and only with an appId and a
    relay, on a page marked as the callback of github and carrying a code;
    it never opens a window. *)
Theorem load_effects (env : Env) (st : State) (cfg : Config) :
  snd (load env st cfg) = []
  \/ (snd (load env st cfg)
      = [EvFetch {| url := toString (gatekeeper cfg) ++ "/authenticate/"
                           ++ toString (getQueryStringValue env "code");
                    method := "GET"; headers := []; body := None |}]
      /\ truthy (appId cfg) = true
      /\ truthy (gatekeeper cfg) = true
      /\ getQueryStringValue env "rslCallback" = VStr "github"
      /\ truthy (getQueryStringValue env "code") = true).
Proof.
  load_cases env st cfg; try (left; reflexivity);
    apply (f_equal snd) in Hget; rewrite getAccessToken_effects in Hget;
    cbn [snd] in Hget; cbn [snd fst];
    (destruct (truthy (getQueryStringValue env "code")) eqn:Hcode;
     [right | left; now symmetry]);
    (split; [now symmetry |]);
    auto using strict_eq_str_true.
Qed.

(** X4: with an appId, in DirectToken mode or on a page that is not a
    callback, [load] resolves with no value, contacts nobody, stores the
    appId and leaves the recorded access token alone. *)
Theorem load_plain_page (env : Env) (st : State) (cfg : Config) :
  truthy (appId cfg) = true ->
  truthy (gatekeeper cfg) = false
  \/ ((exists r, redirect cfg = VStr r)
      /\ strict_eq_str (getQueryStringValue env "rslCallback") "github" = false) ->
  fst (fst (load env st cfg)) = Resolved VUndefined
  /\ snd (load env st cfg) = []
  /\ githubAppId (snd (fst (load env st cfg))) = appId cfg
  /\ githubAccessToken (snd (fst (load env st cfg))) = githubAccessToken st.
Proof.
  intros Happ' Hplain. unfold load. rewrite Happ'. cbn [negb].
  destruct (truthy (gatekeeper cfg)) eqn:Hgk.
  - destruct Hplain as [H | ((r & Hr) & Hcb)]; [discriminate |].
    rewrite Hr, Hcb. unfold uuid. repeat split.
  - repeat split.
Qed.

Lemma load_plain_page_witness :
  fst (fst (load (Sample.browser [] VNull) initial Sample.directConfig))
  = Resolved VUndefined
  /\ snd (load (Sample.browser [("page", "2")] VNull) Sample.loadedOauth
            Sample.oauthConfig) = [].
Proof.
  split.
  - apply (load_plain_page (Sample.browser [] VNull) initial Sample.directConfig
             eq_refl).
    left. reflexivity.
  - apply (load_plain_page (Sample.browser [("page", "2")] VNull)
             Sample.loadedOauth Sample.oauthConfig eq_refl).
    right. split; [exists "http://localhost/cb" |]; reflexivity.
Defined.

(** X5: loading again with the same configuration on the same page changes
    nothing: the second [load] settles as the first, leaves the state the
    first left, and repeats its request. *)
Theorem load_idempotent (env : Env) (st : State) (cfg : Config) :
  load env (snd (fst (load env st cfg))) cfg = load env st cfg.
Proof.
  load_cases env st cfg; cbn [fst snd]; rewrite ?Happ, ?Hgk, ?Huuid, ?Hcb;
    cbn [negb]; try reflexivity;
    match goal with
    | |- context [getAccessToken env ?s2] =>
        match type of Hget with
        | getAccessToken env ?s1 = _ =>
            rewrite (getAccessToken_gatekeeper env s2 s1) by reflexivity
        end
    end;
    rewrite Hget; reflexivity.
Qed.

(** X6: [load] never leaves RedirectOAuth mode: once [oauth] is set, it
    stays set, also after a [load] without relay. *)
Theorem load_keeps_oauth (env : Env) (st : State) (cfg : Config) :
  oauth st = true -> oauth (snd (fst (load env st cfg))) = true.
Proof.
  intros Hoauth. load_cases env st cfg; cbn [fst snd]; auto.
Qed.

Lemma load_keeps_oauth_witness :
  oauth (snd (fst (load (Sample.browser [] VNull) Sample.loadedOauth
                     Sample.directConfig))) = true.
Proof.
  apply (load_keeps_oauth (Sample.browser [] VNull) Sample.loadedOauth
           Sample.directConfig).
  reflexivity.
Defined.

(** X7: [load] touches the recorded access token only to record the truthy
    token it resolves with; it never clears it. *)
Theorem load_records_token_only (env : Env) (st : State) (cfg : Config) :
  githubAccessToken (snd (fst (load env st cfg))) = githubAccessToken st
  \/ (fst (fst (load env st cfg))
      = Resolved (githubAccessToken (snd (fst (load env st cfg))))
      /\ truthy (githubAccessToken (snd (fst (load env st cfg)))) = true).
Proof.
  load_cases env st cfg; cbn [fst snd]; try (left; reflexivity).
  right. split; [reflexivity |].
  apply (f_equal fst) in Hget.
  apply getAccessToken_resolved in Hget. apply Hget.
Qed.

(** ** The probe, case by case *)

Lemma getProp_nullish (base : JsVal) (key : string) :
  getProp base key = if nullish base then None else Some (prop base key).
Proof.
  unfold prop. destruct base; simpl; try reflexivity.
  - destruct (String.eqb key "name"); [reflexivity |].
    destruct (String.eqb key "message"); reflexivity.
  - destruct (lookup key fields); reflexivity.
Qed.

(** X9: when the probe's request fails, or its answer is not JSON, or is
    the JSON [null], [checkLogin] rejects with an AdapterError of type
    [check_login] whose cause is [null]: the failure itself is dropped. *)
Theorem checkLogin_transport_failure (env : Env) (st : State) :
  truthy (githubAccessToken st) = true \/ oauth st = false ->
  (exists error, fetch env (probeRequest st) = FetchFails error)
  \/ (exists response,
         fetch env (probeRequest st) = Responds response
         /\ ((exists error, resp_json response = ParseFails error)
             \/ (exists json, resp_json response = Parsed json
                              /\ nullish json = true))) ->
  checkLogin env st false
  = (Rejected (rslError "github" "check_login"
                 "Failed to fetch user data due to window.fetch() error" VNull),
     [EvFetch (probeRequest st)]).
Proof.
  intros Hsent Hfail. unfold checkLogin, checkLogin_probe.
  assert (Hgo : negb (truthy (githubAccessToken st)) && oauth st = false).
  { destruct Hsent as [H | H]; rewrite H; auto using andb_false_r. }
  rewrite Hgo.
  destruct Hfail as [(error & Hfetch) | (response & Hfetch & Hbody)].
  - rewrite Hfetch. reflexivity.
  - rewrite Hfetch.
    destruct Hbody as [(error & Hjson) | (json & Hjson & Hnull)];
      rewrite Hjson; [reflexivity |].
    rewrite !getProp_nullish, Hnull. reflexivity.
Qed.

Lemma checkLogin_transport_failure_witness :
  checkLogin (Sample.offline []) Sample.loadedDirect false
  = (Rejected (rslError "github" "check_login"
                 "Failed to fetch user data due to window.fetch() error" VNull),
     [EvFetch (probeRequest Sample.loadedDirect)])
  /\ checkLogin (Sample.browser [] VNull) Sample.loadedDirect false
     = (Rejected (rslError "github" "check_login"
                    "Failed to fetch user data due to window.fetch() error" VNull),
        [EvFetch (probeRequest Sample.loadedDirect)]).
Proof.
  split.
  - apply (checkLogin_transport_failure (Sample.offline []) Sample.loadedDirect
             (or_intror eq_refl)).
    left. exists Sample.networkError. reflexivity.
  - apply (checkLogin_transport_failure (Sample.browser [] VNull)
             Sample.loadedDirect (or_intror eq_refl)).
    right. exists {| status := 200; resp_json := Parsed VNull |}.
    split; [reflexivity |]. right. exists VNull. split; reflexivity.
Defined.

(** X10: the credential of the probe: [checkLogin] sends one POST to the
    GraphQL endpoint, bearing the recorded access token when there is one,
    in either mode, and the appId in DirectToken mode without a token,
    as long as the text of the credential is one [Headers] takes as it
    is. *)
Theorem checkLogin_credential (env : Env) (st : State) :
  (truthy (githubAccessToken st) = true ->
   headerSafe (toString (githubAccessToken st)) = true ->
   snd (checkLogin env st false)
   = [EvFetch {| url := "https://api.github.com/graphql"; method := "POST";
                 headers := [("Authorization",
                              "Bearer " ++ toString (githubAccessToken st))];
                 body := Some probeBody |}])
  /\ (truthy (githubAccessToken st) = false ->
      oauth st = false ->
      headerSafe (toString (githubAppId st)) = true ->
      snd (checkLogin env st false)
      = [EvFetch {| url := "https://api.github.com/graphql"; method := "POST";
                    headers := [("Authorization",
                                 "Bearer " ++ toString (githubAppId st))];
                    body := Some probeBody |}]).
Proof.
  unfold checkLogin, checkLogin_probe, probeRequest, js_or. split.
  - intros Htok _. rewrite Htok. reflexivity.
  - intros Htok Hoauth _. rewrite Htok, Hoauth. reflexivity.
Qed.

Lemma checkLogin_credential_witness :
  snd (checkLogin (Sample.browser [] Sample.ada)
         (set_githubAccessToken (VStr "t1") Sample.loadedOauth) false)
  = [EvFetch {| url := "https://api.github.com/graphql"; method := "POST";
                headers := [("Authorization", "Bearer t1")];
                body := Some probeBody |}]
  /\ snd (checkLogin (Sample.browser [] Sample.ada) Sample.loadedDirect false)
     = [EvFetch {| url := "https://api.github.com/graphql"; method := "POST";
                   headers := [("Authorization", "Bearer app")];
                   body := Some probeBody |}].
Proof.
  split.
  - apply (proj1 (checkLogin_credential (Sample.browser [] Sample.ada)
                    (set_githubAccessToken (VStr "t1") Sample.loadedOauth)));
      reflexivity.
  - apply (proj2 (checkLogin_credential (Sample.browser [] Sample.ada)
                    Sample.loadedDirect)); reflexivity.
Defined.

(** X11: [checkLogin] resolves only with the JSON body the endpoint sent
    in answer to the probe, a body other than [null] whose [message] and
    [errors] are both missing or falsy. *)
Theorem checkLogin_resolves_only (env : Env) (st : State) (v : JsVal) :
  fst (checkLogin env st false) = Resolved v ->
  (truthy (githubAccessToken st) = true \/ oauth st = false)
  /\ nullish v = false
  /\ truthy (prop v "message") = false
  /\ truthy (prop v "errors") = false
  /\ exists response,
       fetch env (probeRequest st) = Responds response
       /\ resp_json response = Parsed v.
Proof.
  unfold checkLogin, checkLogin_probe.
  destruct (truthy (githubAccessToken st)) eqn:Htok; cbn [negb andb].
  - cbn [fst].
    destruct (fetch env (probeRequest st)) as [response | error |] eqn:Hfetch;
      try discriminate.
    destruct (resp_json response) as [json | error |] eqn:Hjson;
      try discriminate.
    rewrite !getProp_nullish.
    destruct (nullish json) eqn:Hnull; [discriminate |].
    destruct (truthy (prop json "message")) eqn:Hmessage; [discriminate |].
    destruct (truthy (prop json "errors")) eqn:Herrors; [discriminate |].
    cbn [orb]. intros H. injection H as <-.
    repeat split; auto. exists response. auto.
  - destruct (oauth st) eqn:Hoauth; [discriminate |]. cbn [fst].
    destruct (fetch env (probeRequest st)) as [response | error |] eqn:Hfetch;
      try discriminate.
    destruct (resp_json response) as [json | error |] eqn:Hjson;
      try discriminate.
    rewrite !getProp_nullish.
    destruct (nullish json) eqn:Hnull; [discriminate |].
    destruct (truthy (prop json "message")) eqn:Hmessage; [discriminate |].
    destruct (truthy (prop json "errors")) eqn:Herrors; [discriminate |].
    cbn [orb]. intros H. injection H as <-.
    repeat split; auto. exists response. auto.
Qed.

Lemma checkLogin_resolves_only_witness :
  nullish Sample.ada = false /\ truthy (prop Sample.ada "errors") = false.
Proof.
  destruct (checkLogin_resolves_only (Sample.browser [] Sample.ada)
              Sample.loadedDirect Sample.ada eq_refl)
    as (_ & Hnull & _ & Herrors & _).
  exact (conj Hnull Herrors).
Defined.

(** ** The launcher, case by case *)

(** X12: in RedirectOAuth mode without a recorded token, [login], and
    [checkLogin(true)] with it, goes straight to the authorization URL: no
    request is sent, the one effect is the navigation, and the promise
    stays pending. *)
Theorem login_redirects_without_token (env : Env) (st : State) :
  oauth st = true ->
  truthy (githubAccessToken st) = false ->
  login env st = (Pending, [EvOpen (githubAuth st) "_self"])
  /\ checkLogin env st true = (Pending, [EvOpen (githubAuth st) "_self"]).
Proof.
  intros Hoauth Htok. unfold checkLogin, login, checkLogin_probe.
  rewrite Hoauth, Htok. split; reflexivity.
Qed.

Lemma login_redirects_without_token_witness :
  checkLogin (Sample.browser [] Sample.ada) Sample.loadedOauth true
  = (Pending,
     [EvOpen (VStr (authorizationUrl (VStr "app") "http://localhost/cb"))
        "_self"]).
Proof.
  apply (login_redirects_without_token (Sample.browser [] Sample.ada)
           Sample.loadedOauth); reflexivity.
Defined.

(** X13: in RedirectOAuth mode [login] never rejects, whatever becomes of
    the probe; and the only window it opens is the authorization URL, in
    the page itself, after which the promise stays pending. *)
Theorem login_oauth_never_rejects (env : Env) (st : State) :
  oauth st = true ->
  (forall e, fst (login env st) <> Rejected e)
  /\ (forall target name,
         In (EvOpen target name) (snd (login env st)) ->
         target = githubAuth st /\ name = "_self"
         /\ fst (login env st) = Pending).
Proof.
  intros Hoauth. unfold login.
  pose proof (checkLogin_probe_effects env st) as Heffects.
  destruct (checkLogin_probe env st) as [[v | e |] tr]; cbn [snd] in Heffects.
  - split; [discriminate |]. intros target name Hin.
    apply Heffects in Hin. discriminate.
  - rewrite Hoauth. cbn [negb fst snd]. split; [discriminate |].
    intros target name Hin. apply in_app_or in Hin.
    destruct Hin as [Hin | [Hin | []]].
    + apply Heffects in Hin. discriminate.
    + injection Hin as <- <-. repeat split.
  - split; [discriminate |]. intros target name Hin.
    apply Heffects in Hin. discriminate.
Qed.

Lemma login_oauth_never_rejects_witness :
  fst (login (Sample.browser [] Sample.badCredentials)
         (set_githubAccessToken (VStr "stale") Sample.loadedOauth))
  <> Rejected (rslError "github" "check_login" "Failed to fetch user data"
                 Sample.badCredentials).
Proof.
  apply (proj1 (login_oauth_never_rejects
                  (Sample.browser [] Sample.badCredentials)
                  (set_githubAccessToken (VStr "stale") Sample.loadedOauth)
                  eq_refl)).
Defined.

(** X14: in DirectToken mode [login] is the probe: it settles, or stays
    pending, exactly as [checkLogin()] does, with the same effects, and
    opens no window. *)
Theorem login_direct_is_probe (env : Env) (st : State) :
  oauth st = false ->
  login env st = checkLogin env st false
  /\ forall target name, ~ In (EvOpen target name) (snd (login env st)).
Proof.
  intros Hoauth. rewrite checkLogin_default.
  assert (Hsame : login env st = checkLogin_probe env st).
  { unfold login. destruct (checkLogin_probe env st) as [[v | e |] tr];
      [reflexivity | rewrite Hoauth; reflexivity | reflexivity]. }
  split; [exact Hsame |].
  intros target name Hin. rewrite Hsame in Hin.
  apply checkLogin_probe_effects in Hin. discriminate.
Qed.

Lemma login_direct_is_probe_witness :
  login (Sample.hanging []) Sample.loadedDirect
  = checkLogin (Sample.hanging []) Sample.loadedDirect false.
Proof.
  apply (login_direct_is_probe (Sample.hanging []) Sample.loadedDirect).
  reflexivity.
Defined.

(** ** The normalizer and the flow of the token *)

(** X15: [generateUser] throws exactly when the response, its [data] or
    its [data.viewer] is [undefined] or [null]; a viewer lacking fields is
    no failure. *)
Theorem generateUser_throws_iff (st : State) (response : JsVal) :
  generateUser st response = None
  <-> nullish response = true
      \/ nullish (prop response "data") = true
      \/ nullish (prop (prop response "data") "viewer") = true.
Proof.
  unfold generateUser. rewrite (getProp_nullish response).
  destruct (nullish response); [tauto |].
  rewrite (getProp_nullish (prop response "data")).
  destruct (nullish (prop response "data")); [tauto |].
  rewrite !(getProp_nullish (prop (prop response "data") "viewer")).
  destruct (nullish (prop (prop response "data") "viewer")); [tauto |].
  split; [discriminate |]. intros [H | [H | H]]; discriminate.
Qed.

(** X16: the token [load] resolves with is the credential from then on:
    when [load] resolves with a value other than [undefined], that value is
    recorded and [generateUser] reports it as the user's access token; and
    when its text is one [Headers] takes as it is, the next probe bears
    it. *)
Theorem token_flows_to_user (env : Env) (st : State) (cfg : Config)
    (t : JsVal) :
  fst (fst (load env st cfg)) = Resolved t ->
  t <> VUndefined ->
  githubAccessToken (snd (fst (load env st cfg))) = t
  /\ (forall viewer,
        prop (prop (match generateUser (snd (fst (load env st cfg)))
                            (VObj [("data", VObj [("viewer", VObj viewer)])])
                    with Some user => user | None => VUndefined end)
                "token") "accessToken" = t)
  /\ (headerSafe (toString t) = true ->
      forall env',
        snd (checkLogin env' (snd (fst (load env st cfg))) false)
        = [EvFetch {| url := "https://api.github.com/graphql";
                      method := "POST";
                      headers := [("Authorization", "Bearer " ++ toString t)];
                      body := Some probeBody |}]).
Proof.
  intros Hres Hdef.
  assert (Hrec : githubAccessToken (snd (fst (load env st cfg))) = t
                 /\ truthy t = true).
  { revert Hres. load_cases env st cfg; cbn [fst snd]; intros Hres;
      try discriminate; try (injection Hres as <-; contradiction).
    injection Hres as <-. split; [reflexivity |].
    apply (f_equal fst) in Hget.
    apply getAccessToken_resolved in Hget. apply Hget. }
  destruct Hrec as [Hrec Htruthy]. clear Hres.
  set (st' := snd (fst (load env st cfg))) in *. clearbody st'.
  split; [exact Hrec |]. split.
  - intros viewer. unfold generateUser, js_or. simpl.
    rewrite Hrec, Htruthy.
    destruct (lookup "id" viewer), (lookup "name" viewer),
      (lookup "email" viewer), (lookup "avatarUrl" viewer); reflexivity.
  - intros _ env'. unfold checkLogin, checkLogin_probe, probeRequest, js_or.
    rewrite Hrec, Htruthy. reflexivity.
Qed.

Lemma token_flows_to_user_witness :
  githubAccessToken
    (snd (fst (load (Sample.browser Sample.callbackParams
                       (VObj [("token", VStr "t1")]))
                 initial Sample.oauthConfig)))
  = VStr "t1"
  /\ snd (checkLogin (Sample.offline [])
            (snd (fst (load (Sample.browser Sample.callbackParams
                               (VObj [("token", VStr "t1")]))
                         initial Sample.oauthConfig))) false)
     = [EvFetch {| url := "https://api.github.com/graphql"; method := "POST";
                   headers := [("Authorization", "Bearer t1")];
                   body := Some probeBody |}].
Proof.
  destruct (token_flows_to_user
              (Sample.browser Sample.callbackParams (VObj [("token", VStr "t1")]))
              initial Sample.oauthConfig (VStr "t1") eq_refl)
    as (Hrec & _ & Hprobe); [discriminate |].
  exact (conj Hrec (Hprobe eq_refl (Sample.offline []))).
Defined.

(** ** What [load] leaves behind *)

(** X17: in RedirectOAuth mode with a string redirect URI, [load] leaves
    the module configured however the exchange ends, also when it
    rejects: the mode flag is set, the relay and the appId are stored, and
    the callback and authorization URLs are those of lines 40 and 41. *)
Theorem load_configures_redirect_mode (env : Env) (st : State) (cfg : Config)
    (r : string) :
  truthy (appId cfg) = true ->
  truthy (gatekeeper cfg) = true ->
  redirect cfg = VStr r ->
  oauth (snd (fst (load env st cfg))) = true
  /\ gatekeeperURL (snd (fst (load env st cfg))) = gatekeeper cfg
  /\ githubAppId (snd (fst (load env st cfg))) = appId cfg
  /\ githubRedirect (snd (fst (load env st cfg)))
     = VStr (r ++ "%3FrslCallback%3Dgithub")
  /\ githubAuth (snd (fst (load env st cfg)))
     = VStr ("http://github.com/login/oauth/authorize?client_id="
             ++ toString (appId cfg) ++ "&redirect_uri="
             ++ (r ++ "%3FrslCallback%3Dgithub") ++ "&scope=user&state="
             ++ stateToken r).
Proof.
  intros Happ' Hgk' Hr. unfold load. rewrite Happ', Hgk', Hr. cbn [negb].
  unfold uuid.
  destruct (strict_eq_str (getQueryStringValue env "rslCallback") "github");
    [| repeat split].
  match goal with
  | |- context [getAccessToken env ?s] =>
      destruct (getAccessToken env s) as [[v | e |] tr]
  end; repeat split.
Qed.

Lemma load_configures_redirect_mode_witness :
  oauth (snd (fst (load (Sample.browser Sample.callbackParams Sample.denied)
                     initial Sample.oauthConfig))) = true.
Proof.
  apply (load_configures_redirect_mode
           (Sample.browser Sample.callbackParams Sample.denied) initial
           Sample.oauthConfig "http://localhost/cb"); reflexivity.
Defined.

(** X18: a [load] without relay does not bring the module back to
    DirectToken mode: after a [load] in RedirectOAuth mode that recorded no
    token, a later [load] with an appId alone still leaves [checkLogin]
    refusing to probe, for want of an access token. *)
Theorem load_direct_after_oauth (env env' : Env) (st : State) (cfg : Config) :
  oauth st = true ->
  truthy (githubAccessToken st) = false ->
  truthy (appId cfg) = true ->
  truthy (gatekeeper cfg) = false ->
  checkLogin env' (snd (fst (load env st cfg))) false
  = (Rejected (rslError "github" "access_token" "No access token available"
                 VNull), []).
Proof.
  intros Hoauth Htok Happ' Hgk'. unfold load. rewrite Happ', Hgk'.
  cbn [negb fst snd]. unfold checkLogin, checkLogin_probe.
  cbn [githubAccessToken oauth set_githubAppId]. rewrite Hoauth, Htok.
  reflexivity.
Qed.

Lemma load_direct_after_oauth_witness :
  checkLogin (Sample.browser [] Sample.ada)
    (snd (fst (load (Sample.browser [] VNull) Sample.loadedOauth
                 Sample.directConfig))) false
  = (Rejected (rslError "github" "access_token" "No access token available"
                 VNull), []).
Proof.
  apply (load_direct_after_oauth (Sample.browser [] VNull)
           (Sample.browser [] Sample.ada) Sample.loadedOauth
           Sample.directConfig); reflexivity.
Defined.
